(** * Felt: the Cython build descriptors and the window/document smoke test

    The repository holds three packaging scripts
    ([legacy/python/felt/setup.py], [python/felt/setup.py],
    [scripts/felt/setup.py]) and one unit test
    ([python/felt/tests/lib/test_SimpleWindow.py]).

    The scripts are straight-line Python: they read one environment
    variable, build a list of [Extension] declarations with
    [os.path.join], and hand the list to [cythonize] and [setup].  They
    are embedded as functions from the process environment (a finite map
    from names to values, as [os.environ] is) into an error monad, the
    error being the exception a Python call raises.

    The test is straight-line code over three foreign libraries (the
    window library [sf], the document library [rocket] and the bridge
    [RktSFML]).  It is embedded in a state-and-exception monad over an
    arbitrary implementation of those libraries; the monad also keeps the
    log of the statements that were executed. *)

From Stdlib Require Import String Ascii List ZArith Bool.
From stdpp Require Import base gmap strings list.

Import ListNotations.
Local Open Scope string_scope.

(* ===================================================================== *)
(** ** Python values and exceptions used by the scripts *)
(* ===================================================================== *)

(** The exceptions that the modelled code can raise. *)
Inductive exn : Type :=
| TypeError        (* a [str] operation applied to [None] *)
| AttributeError   (* a method looked up on [None] *)
| AssertionError (line : nat).  (* a failed [unittest] assertion *)

(** Outcome of a Python computation: a value, or a raised exception. *)
Inductive result (A : Type) : Type :=
| Ok (a : A)
| Raise (e : exn).
Arguments Ok {A} a.
Arguments Raise {A} e.

#[global] Instance result_ret : MRet result := fun A a => Ok a.
#[global] Instance result_bind : MBind result := fun A B f m =>
  match m with
  | Ok a => f a
  | Raise e => Raise e
  end.

(** A Python reference to a [str]: either [None] or a string. *)
Abbreviation pystr := (option string).

Module os.

(** [os.environ.get(key)]: the value bound to [key], [None] when the key
    is not bound (the call site passes no default). *)
Definition environ_get (environ : gmap string string) (key : string) : pystr :=
  environ !! key.

Definition startswith_sep (b : string) : bool :=
  match b with
  | String c _ => if Ascii.eqb c "/" then true else false
  | EmptyString => false
  end.

Fixpoint endswith_sep (a : string) : bool :=
  match a with
  | EmptyString => false
  | String c EmptyString => Ascii.eqb c "/"
  | String _ rest => endswith_sep rest
  end.

(** [posixpath.join(a, b)] on two [str] arguments:
    an absolute [b] replaces [a]; otherwise [b] is appended, with a
    separator unless [a] is empty or already ends with one. *)
Definition join_str (a b : string) : string :=
  if startswith_sep b then b
  else if (String.eqb a "" || endswith_sep a)%bool then a ++ b
  else a ++ "/" ++ b.

(** [os.path.join(a, b)] where [a] may be [None]: the string operations
    of [posixpath.join] are then applied to [None], which raises
    ([TypeError] from [os.fspath]; older interpreters raise
    [AttributeError] from [a.endswith]; either way no path is
    returned). *)
Definition path_join (a : pystr) (b : string) : result string :=
  match a with
  | None => Raise TypeError
  | Some a => Ok (join_str a b)
  end.

End os.

(* ===================================================================== *)
(** ** [distutils.extension.Extension], [cythonize], [setup] *)
(* ===================================================================== *)

(** The attributes of an [Extension] object that the scripts set.  A
    keyword that is not passed is left at the constructor's default: the
    empty list, and [None] for [language]. *)
Record Extension : Type := mkExtension {
  ext_name : string;
  sources : list string;
  include_dirs : list string;
  library_dirs : list string;
  libraries : list string;
  language : pystr;
  extra_compile_args : list string;
  extra_link_args : list string
}.

(** The arguments of one [cythonize(...)] call: the positional module
    list and the two keywords the scripts use ([None]: keyword absent).
    The record is what a script hands over; what [cythonize] and [setup]
    then do with it, their failures included, belongs to the packaging
    tools and is not modelled. *)
Record cythonize_call : Type := mkCythonize {
  module_list : list Extension;
  gdb_debug : option bool;
  output_dir : pystr
}.

(** The arguments of the [setup(...)] call that ends each script. *)
Record setup_call : Type := mkSetup {
  setup_name : string;
  ext_modules : cythonize_call
}.

(** *** Variant A: [legacy/python/felt/setup.py] *)
Module legacy.

Definition project_dir (environ : gmap string string) : pystr :=
  os.environ_get environ "PROJECT_DIR".

Definition extensions (project_dir : pystr) : result (list Extension) :=
  i_tests ← os.path_join project_dir "tests";
  let stub :=
    {| ext_name := "tests.lib.PyStubTemplate";
       sources := ["tests/lib/PyStubTemplate.pyx"];
       include_dirs := [i_tests];
       library_dirs := [];
       libraries := [];
       language := Some "c++";
       extra_compile_args := [];
       extra_link_args := [] |} in
  i_include ← os.path_join project_dir "include";
  i_libFelt ← os.path_join project_dir "libFelt";
  l_rocket ← os.path_join project_dir "lib/rocket/lib";
  l_libFelt ← os.path_join project_dir "libFelt/.libs";
  let bridge :=
    {| ext_name := "lib.PyRktSFMLInterface";
       sources := ["lib/PyRktSFMLInterface.pyx"];
       include_dirs := [i_include; i_libFelt];
       library_dirs := [l_rocket; l_libFelt];
       libraries := ["Felt"; "RocketCore"; "RocketControls";
                     "RocketDebugger"; "sfml-window";
                     "sfml-system"; "sfml-graphics"];
       language := Some "c++";
       extra_compile_args := ["-g"];
       extra_link_args := ["-g"] |} in
  Ok [stub; bridge].

Definition setup (environ : gmap string string) : result setup_call :=
  let project_dir := project_dir environ in
  extensions ← extensions project_dir;
  out ← os.path_join project_dir "python/felt/lib";
  Ok {| setup_name := "felt";
        ext_modules := {| module_list := extensions;
                          gdb_debug := Some true;
                          output_dir := Some out |} |}.

End legacy.

(** *** Variant B: [python/felt/setup.py] *)
Module python.

Definition project_dir (environ : gmap string string) : pystr :=
  os.environ_get environ "PROJECT_DIR".

Definition extensions (project_dir : pystr) : result (list Extension) :=
  i_tests ← os.path_join project_dir "tests";
  let stub :=
    {| ext_name := "tests.lib.PyStubTemplate";
       sources := ["tests/lib/PyStubTemplate.pyx"];
       include_dirs := [i_tests];
       library_dirs := [];
       libraries := [];
       language := Some "c++";
       extra_compile_args := [];
       extra_link_args := [] |} in
  Ok [stub].

Definition setup (environ : gmap string string) : result setup_call :=
  let project_dir := project_dir environ in
  extensions ← extensions project_dir;
  Ok {| setup_name := "felt";
        ext_modules := {| module_list := extensions;
                          gdb_debug := None;
                          output_dir := None |} |}.

End python.

(** *** Variant C: [scripts/felt/setup.py] *)
Module scripts.

Definition project_dir (environ : gmap string string) : pystr :=
  os.environ_get environ "PROJECT_ROOT".

Definition extensions (project_dir : pystr) : result (list Extension) :=
  i_tests ← os.path_join project_dir "src/tests";
  let stub :=
    {| ext_name := "tests.lib.PyStubTemplate";
       sources := ["tests/lib/PyStubTemplate.pyx"];
       include_dirs := [i_tests];
       library_dirs := [];
       libraries := [];
       language := Some "c++";
       extra_compile_args := [];
       extra_link_args := [] |} in
  i_include ← os.path_join project_dir "include";
  i_vendor ← os.path_join project_dir "vendor/include";
  l_lib ← os.path_join project_dir "lib";
  l_vendor ← os.path_join project_dir "vendor/lib";
  let bridge :=
    {| ext_name := "lib.PyRktSFMLInterface";
       sources := ["lib/PyRktSFMLInterface.pyx"];
       include_dirs := [i_include; i_vendor];
       library_dirs := [l_lib; l_vendor];
       libraries := ["RktSFMLInterface"; "RocketCore"; "RocketControls";
                     "RocketDebugger"; "sfml-window";
                     "sfml-system"; "sfml-graphics"];
       language := Some "c++";
       extra_compile_args := ["-g"];
       extra_link_args := ["-g"] |} in
  Ok [stub; bridge].

Definition setup (environ : gmap string string) : result setup_call :=
  let project_dir := project_dir environ in
  extensions ← extensions project_dir;
  out ← os.path_join project_dir "scripts/felt/lib";
  Ok {| setup_name := "felt";
        ext_modules := {| module_list := extensions;
                          gdb_debug := Some true;
                          output_dir := Some out |} |}.

End scripts.

(* ===================================================================== *)
(** ** [str.strip()] *)
(* ===================================================================== *)

Module str.

(** The characters [strip] removes when called without argument, on a
    text string: those for which [str.isspace] holds.  A character of a
    [string] stands for the code point of the same number, so the text
    modelled is the text of code points below 256; the white space among
    them is 9 to 13 (tab to carriage return), 28 to 31 (the four
    separators), 32 (space), 133 (next line) and 160 (no-break space). *)
Definition isspace (c : ascii) : bool :=
  let n := N_of_ascii c in
  ((9 <=? n)%N && (n <=? 13)%N) || ((28 <=? n)%N && (n <=? 32)%N)
  || (n =? 133)%N || (n =? 160)%N.

Fixpoint lstrip (s : string) : string :=
  match s with
  | String c rest => if isspace c then lstrip rest else s
  | EmptyString => EmptyString
  end.

Definition reverse (s : string) : string :=
  string_of_list_ascii (rev (list_ascii_of_string s)).

Definition rstrip (s : string) : string := reverse (lstrip (reverse s)).

Definition strip (s : string) : string := rstrip (lstrip s).

End str.

(* ===================================================================== *)
(** ** The foreign libraries of [test_SimpleWindow.py] *)
(* ===================================================================== *)

(** [sf.VideoMode(width, height)] and [rocket.Vector2i(x, y)]. *)
Record VideoMode : Type := mkVideoMode { vm_width : Z; vm_height : Z }.
Record Vector2i : Type := mkVector2i { v_x : Z; v_y : Z }.

(** The compiled modules the test imports ([felt.lib.sfml],
    [felt.lib.rocket], [felt.lib.PyRktSFMLInterface]) are not Python
    sources; the test only sees their call boundary.  An implementation
    of that boundary is a state [World] together with one transition per
    call; the handle types are the implementation's own.  Properties
    ([is_open], [inner_rml]) read the state without changing it, and the
    calls are taken to return: the exceptions of interest are the test's
    own. *)
Class Libs (World Window Adapter Context Document : Type) : Type := {
  sf_RenderWindow : VideoMode -> string -> World -> Window * World;
  sf_is_open : Window -> World -> bool;
  sf_clear : Window -> World -> World;
  sf_display : Window -> World -> World;
  sf_close : Window -> World -> World;
  RktSFML_init : Window -> World -> Adapter * World;
  RktSFML_rktInit : Adapter -> Context -> World -> World;
  RktSFML_rktInitDebugger : Adapter -> World -> World;
  rocket_CreateContext : string -> Vector2i -> World -> Context * World;
  rocket_LoadDocument : Context -> string -> World -> option Document * World;
  rocket_Update : Context -> World -> World;
  rocket_Render : Context -> World -> World;
  rocket_Show : Document -> World -> World;
  rocket_inner_rml : Document -> World -> string
}.

Section SimpleWindow.

Context {World Window Adapter Context Document : Type}.
Context {L : Libs World Window Adapter Context Document}.

(** One entry of the execution log: a statement of the test body that
    was executed, with the values it was executed on. *)
Inductive step : Type :=
| S_RenderWindow (mode : VideoMode) (title : string)
| S_RktSFML (window : Window)
| S_CreateContext (name : string) (size : Vector2i)
| S_rktInit (rktSFML : Adapter) (context : Context)
| S_rktInitDebugger (rktSFML : Adapter)
| S_LoadDocument (context : Context) (path : string)
| S_assertIsNotNone (document : option Document)
| S_Show (document : Document)
| S_assertTrue (value : bool)
| S_Update (context : Context)
| S_clear (window : Window)
| S_Render (context : Context)
| S_display (window : Window)
| S_close (window : Window)
| S_assertEqual (first second : string).

(** Machine state while the test runs: the libraries' state and the log,
    most recent statement last. *)
Record state : Type := mkState { world : World; log : list step }.

(** Computations of the test: they thread the state and may raise.  The
    state reached when an exception is raised is kept, so that the log
    of a failed run can be inspected. *)
Definition M (A : Type) : Type := state -> result A * state.

#[local] Instance M_ret : MRet M := fun A a st => (Ok a, st).
#[local] Instance M_bind : MBind M := fun A B f m st =>
  match m st with
  | (Ok a, st') => f a st'
  | (Raise e, st') => (Raise e, st')
  end.

Definition raise {A} (e : exn) : M A := fun st => (Raise e, st).

(** A call that returns a value: the library moves, the statement is
    logged. *)
Definition call {A} (s : step) (f : World -> A * World) : M A :=
  fun st => let (a, w) := f (world st) in
            (Ok a, {| world := w; log := log st ++ [s] |}).

(** A call made for its effect only. *)
Definition call_ (s : step) (f : World -> World) : M unit :=
  fun st => (Ok tt, {| world := f (world st); log := log st ++ [s] |}).

(** A property read: no effect, not a statement of its own. *)
Definition read {A} (f : World -> A) : M A :=
  fun st => (Ok (f (world st)), st).

(** A [unittest] assertion: logged, then [AssertionError] unless the
    condition holds.  [line] is the line of the assertion in the test
    file. *)
Definition assertion (s : step) (cond : bool) (line : nat) : M unit :=
  fun st => (if cond then Ok tt else Raise (AssertionError line),
             {| world := world st; log := log st ++ [s] |}).

(** *** The statements the test uses *)

Definition RenderWindow (mode : VideoMode) (title : string) : M Window :=
  call (S_RenderWindow mode title) (sf_RenderWindow mode title).

Definition RktSFML (window : Window) : M Adapter :=
  call (S_RktSFML window) (RktSFML_init window).

Definition CreateContext (name : string) (size : Vector2i) : M Context :=
  call (S_CreateContext name size) (rocket_CreateContext name size).

Definition rktInit (rktSFML : Adapter) (context : Context) : M unit :=
  call_ (S_rktInit rktSFML context) (RktSFML_rktInit rktSFML context).

Definition rktInitDebugger (rktSFML : Adapter) : M unit :=
  call_ (S_rktInitDebugger rktSFML) (RktSFML_rktInitDebugger rktSFML).

Definition LoadDocument (context : Context) (path : string)
  : M (option Document) :=
  call (S_LoadDocument context path) (rocket_LoadDocument context path).

(** [document.Show()]: a method call on a reference that may be [None]. *)
Definition Show (document : option Document) : M unit :=
  match document with
  | Some d => call_ (S_Show d) (rocket_Show d)
  | None => raise AttributeError
  end.

(** [document.inner_rml]: a property of a reference that may be [None]. *)
Definition inner_rml (document : option Document) : M string :=
  match document with
  | Some d => read (rocket_inner_rml d)
  | None => raise AttributeError
  end.

Definition is_open (window : Window) : M bool := read (sf_is_open window).
Definition Update (context : Context) : M unit :=
  call_ (S_Update context) (rocket_Update context).
Definition Render (context : Context) : M unit :=
  call_ (S_Render context) (rocket_Render context).
Definition clear (window : Window) : M unit :=
  call_ (S_clear window) (sf_clear window).
Definition display (window : Window) : M unit :=
  call_ (S_display window) (sf_display window).
Definition close (window : Window) : M unit :=
  call_ (S_close window) (sf_close window).

Definition assertIsNotNone (document : option Document) : M unit :=
  assertion (S_assertIsNotNone document)
            (match document with Some _ => true | None => false end) 25.

Definition assertTrue (value : bool) : M unit :=
  assertion (S_assertTrue value) value 29.

Definition assertEqual (first second : string) : M unit :=
  assertion (S_assertEqual first second) (String.eqb first second) 39.

(** *** [Test_rktSFML.test_open_window_load_document] *)
Definition test_open_window_load_document : M unit :=
  window ← RenderWindow (mkVideoMode 640 480) "pySFML Window";
  rktSFML ← RktSFML window;
  let doDefaultContext : M unit :=
    context ← CreateContext "default" (mkVector2i 640 480);
    rktInit rktSFML context;;
    rktInitDebugger rktSFML;;
    document ← LoadDocument context "assets/blank.rml";
    assertIsNotNone document;;
    Show document;;
    value ← is_open window;
    assertTrue value;;
    Update context;;
    clear window;;
    Render context;;
    display window;;
    close window;;
    text ← inner_rml document;
    assertEqual (str.strip text) "This is blank"
  in
  doDefaultContext.

(** Running the test from a state of the libraries, with an empty log. *)
Definition run (w0 : World) : result unit * state :=
  test_open_window_load_document {| world := w0; log := [] |}.

End SimpleWindow.

(* ===================================================================== *)
(** ** A small implementation of the libraries, to run the test on *)
(* ===================================================================== *)

(** One window, one adapter, one context; a document is named by the path
    it was loaded from, and its text is the content of that asset.  A
    window opens unless the display is unavailable, and stays open until
    it is closed. *)
Module Stub.

Record world : Type := mkWorld {
  assets : gmap string string;
  display_available : bool;
  window_open : bool;
  debugger_on : bool;
  frames : nat
}.

Definition set_open (b : bool) (w : world) : world :=
  {| assets := assets w; display_available := display_available w;
     window_open := b; debugger_on := debugger_on w; frames := frames w |}.

Definition set_debugger (w : world) : world :=
  {| assets := assets w; display_available := display_available w;
     window_open := window_open w; debugger_on := true; frames := frames w |}.

Definition add_frame (w : world) : world :=
  {| assets := assets w; display_available := display_available w;
     window_open := window_open w; debugger_on := debugger_on w;
     frames := S (frames w) |}.

#[global] Instance libs : Libs world unit unit unit string := {|
  sf_RenderWindow := fun _ _ w => (tt, set_open (display_available w) w);
  sf_is_open := fun _ w => window_open w;
  sf_clear := fun _ w => w;
  sf_display := fun _ w => add_frame w;
  sf_close := fun _ w => set_open false w;
  RktSFML_init := fun _ w => (tt, w);
  RktSFML_rktInit := fun _ _ w => w;
  RktSFML_rktInitDebugger := fun _ w => set_debugger w;
  rocket_CreateContext := fun _ _ w => (tt, w);
  rocket_LoadDocument := fun _ path w =>
    (match assets w !! path with Some _ => Some path | None => None end, w);
  rocket_Update := fun _ w => w;
  rocket_Render := fun _ w => w;
  rocket_Show := fun _ w => w;
  rocket_inner_rml := fun d w => default "" (assets w !! d)
|}.

Definition boot (files : gmap string string) (display : bool) : world :=
  {| assets := files; display_available := display;
     window_open := false; debugger_on := false; frames := 0 |}.

(** The asset holds the expected text, on a line of its own. *)
Definition blank : world :=
  boot {[ "assets/blank.rml" := String "010" ("This is blank" ++ String "010" "") ]} true.

(** The asset holds another text. *)
Definition other_text : world :=
  boot {[ "assets/blank.rml" := "This is not blank" ]} true.

(** The asset is missing. *)
Definition no_asset : world := boot ∅ true.

(** The window cannot be opened. *)
Definition no_display : world :=
  boot {[ "assets/blank.rml" := "This is blank" ]} false.

End Stub.

(* ===================================================================== *)
(** ** Observations on a descriptor and on a run *)
(* ===================================================================== *)

(** The three descriptors, by the name the specification gives them. *)
Inductive variant : Type := A | B | C.

(** The environment variable a descriptor reads on its line 6. *)
Definition root_variable (v : variant) : string :=
  match v with
  | A | B => "PROJECT_DIR"
  | C => "PROJECT_ROOT"
  end.

Definition project_dir_of (v : variant) (environ : gmap string string) : pystr :=
  match v with
  | A => legacy.project_dir environ
  | B => python.project_dir environ
  | C => scripts.project_dir environ
  end.

Definition extensions_of (v : variant) (project_dir : pystr)
  : result (list Extension) :=
  match v with
  | A => legacy.extensions project_dir
  | B => python.extensions project_dir
  | C => scripts.extensions project_dir
  end.

Definition setup_of (v : variant) (environ : gmap string string)
  : result setup_call :=
  match v with
  | A => legacy.setup environ
  | B => python.setup environ
  | C => scripts.setup environ
  end.

Definition modules (s : setup_call) : list Extension :=
  module_list (ext_modules s).

Definition module_names (s : setup_call) : list string :=
  map ext_name (modules s).

Definition linked_libraries (s : setup_call) : list string :=
  concat (map libraries (modules s)).

Definition without (name : string) (l : list string) : list string :=
  List.filter (fun x => negb (String.eqb x name)) l.

Definition source_paths (s : setup_call) : list string :=
  concat (map sources (modules s)).

Definition include_paths (s : setup_call) : list string :=
  concat (map include_dirs (modules s)).

Definition library_paths (s : setup_call) : list string :=
  concat (map library_dirs (modules s)).

Definition output_paths (s : setup_call) : list string :=
  match output_dir (ext_modules s) with
  | Some p => [p]
  | None => []
  end.

(** Every path a descriptor mentions. *)
Definition declared_paths (s : setup_call) : list string :=
  (source_paths s ++ include_paths s ++ library_paths s ++ output_paths s)%list.

(** The source file Cython expects for a module: the dotted name with
    its dots turned into separators, and the suffix [.pyx]. *)
Fixpoint dots_to_seps (name : string) : string :=
  match name with
  | String c rest =>
      String (if Ascii.eqb c "." then "/"%char else c) (dots_to_seps rest)
  | EmptyString => EmptyString
  end.

Definition module_path (name : string) : string :=
  dots_to_seps name ++ ".pyx".

(** The include, library and output directories of a descriptor. *)
Definition search_and_output_paths (s : setup_call) : list string :=
  (include_paths s ++ library_paths s ++ output_paths s)%list.

(** Strings made of white space only. *)
Definition all_space (s : string) : bool :=
  forallb str.isspace (list_ascii_of_string s).

(** The first character of a string is not white space (or there is
    none). *)
Definition head_free (s : string) : bool :=
  match s with
  | String c _ => negb (str.isspace c)
  | EmptyString => true
  end.

(** Strings with no white space at either end. *)
Definition edge_free (s : string) : bool :=
  head_free s && head_free (str.reverse s).

Section Sequences.

Context {Window Adapter Context Document : Type}.

(** The statements up to and including the load. *)
Definition opening (w : Window) (a : Adapter) (c : Context)
  : list (@step Window Adapter Context Document) :=
  [S_RenderWindow (mkVideoMode 640 480) "pySFML Window";
   S_RktSFML w;
   S_CreateContext "default" (mkVector2i 640 480);
   S_rktInit a c;
   S_rktInitDebugger a;
   S_LoadDocument c "assets/blank.rml"].

(** The statements of the single frame, from [Update] to [close]. *)
Definition frame (w : Window) (c : Context)
  : list (@step Window Adapter Context Document) :=
  [S_Update c; S_clear w; S_Render c; S_display w; S_close w].

(** A statement that names a window, an adapter or a context names the
    given ones. *)
Definition on_handles (w : Window) (a : Adapter) (c : Context)
    (s : @step Window Adapter Context Document) : Prop :=
  match s with
  | S_RktSFML w' | S_clear w' | S_display w' | S_close w' => w' = w
  | S_rktInit a' c' => a' = a /\ c' = c
  | S_rktInitDebugger a' => a' = a
  | S_LoadDocument c' _ | S_Update c' | S_Render c' => c' = c
  | S_RenderWindow _ _ | S_CreateContext _ _ | S_assertIsNotNone _
  | S_Show _ | S_assertTrue _ | S_assertEqual _ _ => True
  end.

End Sequences.

(* ===================================================================== *)
(** ** Runs on concrete inputs *)
(* ===================================================================== *)

Example strip_blank :
  str.strip (String "010" (String "009" "This is blank  ")) = "This is blank".
Proof. reflexivity. Qed.

Example strip_inner_space : str.strip " a b " = "a b".
Proof. reflexivity. Qed.

Example run_blank :
  run Stub.blank =
  (Ok tt,
   {| world := Stub.set_open false
                 (Stub.add_frame (Stub.set_debugger (Stub.set_open true Stub.blank)));
      log := [S_RenderWindow (mkVideoMode 640 480) "pySFML Window";
              S_RktSFML tt;
              S_CreateContext "default" (mkVector2i 640 480);
              S_rktInit tt tt;
              S_rktInitDebugger tt;
              S_LoadDocument tt "assets/blank.rml";
              S_assertIsNotNone (Some "assets/blank.rml");
              S_Show "assets/blank.rml";
              S_assertTrue true;
              S_Update tt; S_clear tt; S_Render tt; S_display tt; S_close tt;
              S_assertEqual "This is blank" "This is blank"] |}).
Proof. vm_compute. reflexivity. Qed.

Example run_other_text :
  fst (run Stub.other_text) = Raise (AssertionError 39) /\
  last (log (snd (run Stub.other_text)))
  = Some (S_assertEqual "This is not blank" "This is blank").
Proof. vm_compute. split; reflexivity. Qed.

Example run_no_asset :
  fst (run Stub.no_asset) = Raise (AssertionError 25) /\
  last (log (snd (run Stub.no_asset))) = Some (S_assertIsNotNone None).
Proof. vm_compute. split; reflexivity. Qed.

Example run_no_display :
  fst (run Stub.no_display) = Raise (AssertionError 29) /\
  last (log (snd (run Stub.no_display))) = Some (S_assertTrue false).
Proof. vm_compute. split; reflexivity. Qed.
Example strip_separators :
  str.strip (String "028" ("This is blank" ++ String "031" (String "160" "")))
  = "This is blank".
Proof. reflexivity. Qed.

Example run_separators :
  fst (run (Stub.boot
              {[ "assets/blank.rml" :=
                   String "028" ("This is blank" ++ String "031" "") ]}
              true))
  = Ok tt.
Proof. vm_compute. reflexivity. Qed.

(** [lstrip] leaves no white space in front. *)
Lemma lstrip_head (s : string) :
  match str.lstrip s with
  | String c _ => str.isspace c = false
  | EmptyString => True
  end.
Proof.
  induction s as [|c rest IH]; cbn; [exact I|].
  destruct (str.isspace c) eqn:Hc; [exact IH|exact Hc].
Qed.

(** [lstrip] changes nothing when there is no white space in front. *)
Lemma lstrip_fixed (c : ascii) (rest : string) :
  str.isspace c = false -> str.lstrip (String c rest) = String c rest.
Proof. intros Hc. cbn. rewrite Hc. reflexivity. Qed.

Example strip_literal : str.strip "This is blank" = "This is blank".
Proof. reflexivity. Qed.


Local Open Scope list_scope.

(* ===================================================================== *)
(** ** What [strip] computes *)
(* ===================================================================== *)

Lemma append_cons (ch : ascii) (a b : string) :
  (String ch a ++ b)%string = String ch (a ++ b).
Proof. reflexivity. Qed.

Lemma append_assoc (a b c : string) :
  ((a ++ b) ++ c)%string = (a ++ b ++ c)%string.
Proof.
  induction a as [|ch a IH]; [reflexivity|].
  rewrite !append_cons, IH. reflexivity.
Qed.

Lemma list_ascii_of_string_append (a b : string) :
  list_ascii_of_string (a ++ b)%string
  = list_ascii_of_string a ++ list_ascii_of_string b.
Proof.
  induction a as [|ch a IH]; [reflexivity|].
  rewrite append_cons. cbn. now rewrite IH.
Qed.

Lemma string_of_list_ascii_app (l1 l2 : list ascii) :
  string_of_list_ascii (l1 ++ l2)
  = (string_of_list_ascii l1 ++ string_of_list_ascii l2)%string.
Proof.
  induction l1 as [|ch l1 IH]; [reflexivity|].
  cbn [app string_of_list_ascii]. rewrite append_cons, IH. reflexivity.
Qed.

Lemma reverse_append (a b : string) :
  str.reverse (a ++ b)%string = (str.reverse b ++ str.reverse a)%string.
Proof.
  unfold str.reverse.
  rewrite list_ascii_of_string_append, rev_app_distr.
  apply string_of_list_ascii_app.
Qed.

Lemma reverse_involutive (s : string) : str.reverse (str.reverse s) = s.
Proof.
  unfold str.reverse.
  rewrite list_ascii_of_string_of_list_ascii, rev_involutive.
  apply string_of_list_ascii_of_string.
Qed.

Lemma all_space_reverse (s : string) :
  all_space s = true -> all_space (str.reverse s) = true.
Proof.
  unfold all_space, str.reverse.
  rewrite list_ascii_of_string_of_list_ascii, !forallb_forall.
  intros Hall ch Hin. apply Hall, in_rev, Hin.
Qed.

Lemma lstrip_space_append (pre s : string) :
  all_space pre = true -> str.lstrip (pre ++ s)%string = str.lstrip s.
Proof.
  induction pre as [|ch pre IH]; [reflexivity|].
  unfold all_space. cbn [list_ascii_of_string forallb].
  intros [Hch Hpre]%andb_true_iff.
  rewrite append_cons. cbn [str.lstrip]. rewrite Hch. exact (IH Hpre).
Qed.

Lemma lstrip_nonspace_append (ch : ascii) (rest s : string) :
  str.isspace ch = false ->
  str.lstrip (String ch rest ++ s)%string = (String ch rest ++ s)%string.
Proof. intros Hch. rewrite append_cons. cbn. now rewrite Hch. Qed.

(** [strip] removes white space on both sides of a text that begins and
    ends with other characters, and gives that text back. *)
Lemma strip_surrounded (pre core post : string) (c c' : ascii)
    (rest rest' : string) :
  all_space pre = true -> all_space post = true ->
  core = String c rest -> str.isspace c = false ->
  str.reverse core = String c' rest' -> str.isspace c' = false ->
  str.strip (pre ++ core ++ post)%string = core.
Proof.
  intros Hpre Hpost Hcore Hc Hrev Hc'.
  unfold str.strip, str.rstrip.
  rewrite (lstrip_space_append pre _ Hpre), Hcore.
  rewrite (lstrip_nonspace_append c rest post Hc), <- Hcore.
  rewrite reverse_append.
  rewrite (lstrip_space_append _ _ (all_space_reverse post Hpost)).
  rewrite Hrev, (lstrip_fixed c' rest' Hc'), <- Hrev.
  apply reverse_involutive.
Qed.

Lemma lstrip_all_space (s : string) :
  all_space s = true -> str.lstrip s = "".
Proof.
  induction s as [|ch s IH]; [reflexivity|].
  unfold all_space. cbn [list_ascii_of_string forallb].
  intros [Hch Hs]%andb_true_iff.
  cbn [str.lstrip]. rewrite Hch. exact (IH Hs).
Qed.

(** [lstrip] takes white space off the front and nothing else. *)
Lemma lstrip_decompose (s : string) :
  exists pre, all_space pre = true /\ s = (pre ++ str.lstrip s)%string.
Proof.
  induction s as [|ch rest IH]; [exists ""; split; reflexivity|].
  cbn [str.lstrip]. destruct (str.isspace ch) eqn:Hch.
  - destruct IH as (pre & Hpre & Heq). exists (String ch pre). split.
    + unfold all_space. cbn [list_ascii_of_string forallb].
      rewrite Hch. exact Hpre.
    + rewrite append_cons. f_equal. exact Heq.
  - exists "". split; reflexivity.
Qed.

(** [rstrip] takes white space off the back and nothing else. *)
Lemma rstrip_decompose (s : string) :
  exists post, all_space post = true /\ s = (str.rstrip s ++ post)%string.
Proof.
  destruct (lstrip_decompose (str.reverse s)) as (pre & Hpre & Heq).
  exists (str.reverse pre). split; [apply all_space_reverse, Hpre|].
  apply (f_equal str.reverse) in Heq.
  rewrite reverse_involutive, reverse_append in Heq. exact Heq.
Qed.

(** A text is its stripped text between two runs of white space. *)
Lemma strip_decompose (s : string) :
  exists pre post,
    all_space pre = true /\ all_space post = true
    /\ s = (pre ++ str.strip s ++ post)%string.
Proof.
  destruct (lstrip_decompose s) as (pre & Hpre & Hl).
  destruct (rstrip_decompose (str.lstrip s)) as (post & Hpost & Hr).
  exists pre, post. unfold str.strip. rewrite <- Hr. auto.
Qed.

Lemma head_free_lstrip (s : string) : head_free (str.lstrip s) = true.
Proof.
  pose proof (lstrip_head s) as Hhead. unfold head_free.
  destruct (str.lstrip s); [reflexivity|]. now rewrite Hhead.
Qed.

(** The stripped text has no white space at either end. *)
Lemma strip_edge_free (s : string) : edge_free (str.strip s) = true.
Proof.
  unfold edge_free, str.strip, str.rstrip.
  rewrite reverse_involutive, head_free_lstrip, andb_true_r.
  destruct (lstrip_decompose (str.reverse (str.lstrip s)))
    as (pre & Hpre & Heq).
  apply (f_equal str.reverse) in Heq.
  rewrite reverse_involutive, reverse_append in Heq.
  destruct (str.reverse (str.lstrip (str.reverse (str.lstrip s))))
    as [|ch rest]; [reflexivity|].
  pose proof (head_free_lstrip s) as Hhead.
  rewrite Heq, append_cons in Hhead. exact Hhead.
Qed.

(** [strip] is determined by these two facts: the only text without
    white space at its ends that sits between two runs of white space in
    [s] is [strip s]. *)
Lemma strip_unique (pre core post : string) :
  all_space pre = true -> all_space post = true ->
  edge_free core = true ->
  str.strip (pre ++ core ++ post)%string = core.
Proof.
  intros Hpre Hpost Hcore.
  destruct core as [|ch rest].
  - unfold str.strip, str.rstrip.
    rewrite (lstrip_space_append pre _ Hpre).
    change ("" ++ post)%string with post.
    rewrite (lstrip_all_space post Hpost). reflexivity.
  - unfold edge_free in Hcore. apply andb_true_iff in Hcore as [Hh Hl].
    cbn [head_free] in Hh. apply negb_true_iff in Hh.
    destruct (str.reverse (String ch rest)) as [|ch' rest'] eqn:Hrev.
    + apply (f_equal str.reverse) in Hrev.
      rewrite reverse_involutive in Hrev. discriminate Hrev.
    + cbn [head_free] in Hl. apply negb_true_iff in Hl.
      exact (strip_surrounded pre _ post ch ch' rest rest'
               Hpre Hpost eq_refl Hh Hrev Hl).
Qed.

(* ===================================================================== *)
(** ** The test: what every run does *)
(* ===================================================================== *)

Section SimpleWindowFacts.

Context {World Window Adapter Context Document : Type}.
Context {L : Libs World Window Adapter Context Document}.

(** Every run takes one of four paths, decided by the loaded document,
    by [is_open] and by the stripped text. *)
Lemma run_paths (w0 : World) :
  exists (w : Window) (a : Adapter) (c : Context) (od : option Document)
         (wc wl : World),
    rocket_LoadDocument c "assets/blank.rml" wc = (od, wl) /\
    match od with
    | None =>
        run w0 = (Raise (AssertionError 25),
                  {| world := wl;
                     log := opening w a c ++ [S_assertIsNotNone None] |})
    | Some d =>
        let ws := rocket_Show d wl in
        if sf_is_open w ws then
          let wf := sf_close w (sf_display w (rocket_Render c
                      (sf_clear w (rocket_Update c ws)))) in
          let t := str.strip (rocket_inner_rml d wf) in
          run w0 = (if String.eqb t "This is blank" then Ok tt
                    else Raise (AssertionError 39),
                    {| world := wf;
                       log := opening w a c
                              ++ [S_assertIsNotNone (Some d); S_Show d;
                                  S_assertTrue true]
                              ++ frame w c
                              ++ [S_assertEqual t "This is blank"] |})
        else
          run w0 = (Raise (AssertionError 29),
                    {| world := ws;
                       log := opening w a c
                              ++ [S_assertIsNotNone (Some d); S_Show d;
                                  S_assertTrue false] |})
    end.
Proof.
  unfold run, test_open_window_load_document.
  cbv [mbind M_bind RenderWindow RktSFML CreateContext rktInit
       rktInitDebugger LoadDocument call call_ world log].
  destruct (sf_RenderWindow _ _ w0) as [w w1].
  destruct (RktSFML_init w w1) as [a w2].
  destruct (rocket_CreateContext _ _ w2) as [c w3].
  destruct (rocket_LoadDocument c _ _) as [od wl] eqn:Hload.
  exists w, a, c, od. eexists. exists wl. split; [exact Hload|].
  destruct od as [d|]; [|reflexivity].
  cbv [assertIsNotNone assertion Show call_ is_open read assertTrue
       world log Update clear Render display close inner_rml assertEqual].
  cbn [app].
  destruct (sf_is_open w _); [|reflexivity].
  cbn zeta.
  destruct (String.eqb _ _); reflexivity.
Qed.


Ltac run_cases w0 :=
  let w := fresh "w" in let a := fresh "a" in let c := fresh "c" in
  let od := fresh "od" in let wc := fresh "wc" in let wl := fresh "wl" in
  let Hload := fresh "Hload" in let Hrun := fresh "Hrun" in
  let Hopen := fresh "Hopen" in let Htext := fresh "Htext" in
  destruct (run_paths w0) as (w & a & c & od & wc & wl & Hload & Hrun);
  destruct od as [?d|];
  [ cbv zeta in Hrun;
    destruct (sf_is_open w _) eqn:Hopen;
    [ destruct (String.eqb _ "This is blank") eqn:Htext | ] | ];
  rewrite Hrun in *; cbn [fst snd log world] in *.

Ltac in_log H :=
  cbn [opening frame app In] in H;
  repeat (destruct H as [H|H]; try discriminate H); try contradiction.

(** The same paths, with the states the libraries go through: the
    window, the adapter and the context come from three calls in a row,
    and the load is made in the state left by the two initialisations. *)
Lemma run_trace (w0 : World) :
  exists (w : Window) (w1 : World) (a : Adapter) (w2 : World)
         (c : Context) (w3 : World) (od : option Document) (wl : World),
    sf_RenderWindow (mkVideoMode 640 480) "pySFML Window" w0 = (w, w1)
    /\ RktSFML_init w w1 = (a, w2)
    /\ rocket_CreateContext "default" (mkVector2i 640 480) w2 = (c, w3)
    /\ rocket_LoadDocument c "assets/blank.rml"
         (RktSFML_rktInitDebugger a (RktSFML_rktInit a c w3)) = (od, wl)
    /\ match od with
       | None =>
           run w0 = (Raise (AssertionError 25),
                     {| world := wl;
                        log := opening w a c ++ [S_assertIsNotNone None] |})
       | Some d =>
           let ws := rocket_Show d wl in
           if sf_is_open w ws then
             let wf := sf_close w (sf_display w (rocket_Render c
                         (sf_clear w (rocket_Update c ws)))) in
             let t := str.strip (rocket_inner_rml d wf) in
             run w0 = (if String.eqb t "This is blank" then Ok tt
                       else Raise (AssertionError 39),
                       {| world := wf;
                          log := opening w a c
                                 ++ [S_assertIsNotNone (Some d); S_Show d;
                                     S_assertTrue true]
                                 ++ frame w c
                                 ++ [S_assertEqual t "This is blank"] |})
           else
             run w0 = (Raise (AssertionError 29),
                       {| world := ws;
                          log := opening w a c
                                 ++ [S_assertIsNotNone (Some d); S_Show d;
                                     S_assertTrue false] |})
       end.
Proof.
  unfold run, test_open_window_load_document.
  cbv [mbind M_bind RenderWindow RktSFML CreateContext rktInit
       rktInitDebugger LoadDocument call call_ world log].
  destruct (sf_RenderWindow _ _ w0) as [w w1] eqn:Hwindow.
  destruct (RktSFML_init w w1) as [a w2] eqn:Hadapter.
  destruct (rocket_CreateContext _ _ w2) as [c w3] eqn:Hcontext.
  destruct (rocket_LoadDocument c _ _) as [od wl] eqn:Hload.
  exists w, w1, a, w2, c, w3, od, wl.
  do 4 (split; [first [reflexivity | assumption]|]).
  destruct od as [d|]; [|reflexivity].
  cbv [assertIsNotNone assertion Show call_ is_open read assertTrue
       world log Update clear Render display close inner_rml assertEqual].
  cbn [app].
  destruct (sf_is_open w _); [|reflexivity].
  cbn zeta.
  destruct (String.eqb _ _); reflexivity.
Qed.

(** C1. Whenever the test reaches its text assertion, it has loaded a
    document from 'assets/blank.rml' in the state left by the window, the
    adapter, the context and the two initialisations, the window has
    reported open, and the libraries have gone once through show, update,
    clear, render, display and close.  The text read is the document's
    [inner_rml] in the state after that close.  The first operand of the
    assertion is that text without the white space at its two ends: it
    has none at either end, and the text is it between two runs of white
    space.  The second operand is the literal "This is blank".  The test
    passes exactly when the two are equal, that is, exactly when the text
    is the literal between two runs of white space. *)
Theorem text_assertion_after_cycle (w0 : World) (first second : string) :
  In (S_assertEqual first second) (log (snd (run w0))) ->
  exists w w1 a w2 c w3 d wl pre post,
    sf_RenderWindow (mkVideoMode 640 480) "pySFML Window" w0 = (w, w1)
    /\ RktSFML_init w w1 = (a, w2)
    /\ rocket_CreateContext "default" (mkVector2i 640 480) w2 = (c, w3)
    /\ rocket_LoadDocument c "assets/blank.rml"
         (RktSFML_rktInitDebugger a (RktSFML_rktInit a c w3)) = (Some d, wl)
    /\ sf_is_open w (rocket_Show d wl) = true
    /\ world (snd (run w0))
       = sf_close w (sf_display w (rocket_Render c
           (sf_clear w (rocket_Update c (rocket_Show d wl)))))
    /\ log (snd (run w0))
       = (opening w a c
          ++ [S_assertIsNotNone (Some d); S_Show d; S_assertTrue true]
          ++ frame w c ++ [S_assertEqual first second])%list
    /\ rocket_inner_rml d (world (snd (run w0)))
       = (pre ++ first ++ post)%string
    /\ all_space pre = true /\ all_space post = true
    /\ edge_free first = true
    /\ first = str.strip (rocket_inner_rml d (world (snd (run w0))))
    /\ second = "This is blank"
    /\ (fst (run w0) = Ok tt <-> first = "This is blank")
    /\ (first <> "This is blank" -> fst (run w0) = Raise (AssertionError 39))
    /\ (fst (run w0) = Ok tt
        <-> exists pre' post',
              all_space pre' = true /\ all_space post' = true
              /\ rocket_inner_rml d (world (snd (run w0)))
                 = (pre' ++ "This is blank" ++ post')%string).
Proof.
  intros Hin.
  destruct (run_trace w0)
    as (w & w1 & a & w2 & c & w3 & od & wl
        & Hwindow & Hadapter & Hcontext & Hload & Hrun).
  destruct od as [d|]; cbv zeta in Hrun;
    [destruct (sf_is_open w _) eqn:Hopen|];
    rewrite Hrun in *; cbn [fst snd log world] in *; in_log Hin.
  injection Hin as <- <-.
  set (wf := sf_close w _) in *.
  destruct (strip_decompose (rocket_inner_rml d wf))
    as (pre & post & Hpre & Hpost & Hraw).
  assert (Hpass : (if String.eqb (str.strip (rocket_inner_rml d wf))
                                 "This is blank"
                   then Ok tt else Raise (AssertionError 39)) = Ok tt
                  <-> str.strip (rocket_inner_rml d wf) = "This is blank").
  { destruct (String.eqb _ _) eqn:Htext.
    - apply String.eqb_eq in Htext. tauto.
    - apply String.eqb_neq in Htext. split; [discriminate|contradiction]. }
  exists w, w1, a, w2, c, w3, d, wl, pre, post.
  split; [exact Hwindow|]. split; [exact Hadapter|].
  split; [exact Hcontext|]. split; [exact Hload|]. split; [exact Hopen|].
  do 2 (split; [reflexivity|]).
  split; [exact Hraw|]. split; [exact Hpre|]. split; [exact Hpost|].
  split; [apply strip_edge_free|]. do 2 (split; [reflexivity|]).
  split; [exact Hpass|]. split.
  - intros Hne. destruct (String.eqb _ _) eqn:Htext; [|reflexivity].
    apply String.eqb_eq in Htext. contradiction.
  - rewrite Hpass. split.
    + intros Htext. exists pre, post. rewrite <- Htext. auto.
    + intros (pre' & post' & Hpre' & Hpost' & Hraw').
      rewrite Hraw'. apply strip_unique; auto.
Qed.

(** C4 (as amended). A passing run executes exactly these sixteen
    statements, in this order: the window, the adapter, the context, the
    adapter's initialisation, the adapter's debugger initialisation, the
    load, the non-null assertion, the show, the is-open assertion,
    update, clear, render, display, close, and the text assertion. *)
Theorem passing_run_sequence (w0 : World) :
  fst (run w0) = Ok tt ->
  exists w a c d,
    log (snd (run w0))
    = [S_RenderWindow (mkVideoMode 640 480) "pySFML Window";
       S_RktSFML w;
       S_CreateContext "default" (mkVector2i 640 480);
       S_rktInit a c;
       S_rktInitDebugger a;
       S_LoadDocument c "assets/blank.rml";
       S_assertIsNotNone (Some d);
       S_Show d;
       S_assertTrue true;
       S_Update c;
       S_clear w;
       S_Render c;
       S_display w;
       S_close w;
       S_assertEqual "This is blank" "This is blank"].
Proof.
  intros Hok. run_cases w0; try discriminate Hok.
  apply String.eqb_eq in Htext. rewrite Htext.
  exists w, a, c, d. reflexivity.
Qed.

(** C7 (as amended). Every run executes the adapter's debugger
    initialisation: it is the fifth statement, right after [rktInit] on
    the same adapter and right before the load. *)
Theorem debugger_init_always_executed (w0 : World) :
  exists w a c rest,
    log (snd (run w0))
    = [S_RenderWindow (mkVideoMode 640 480) "pySFML Window";
       S_RktSFML w;
       S_CreateContext "default" (mkVector2i 640 480);
       S_rktInit a c;
       S_rktInitDebugger a;
       S_LoadDocument c "assets/blank.rml"] ++ rest.
Proof.
  run_cases w0; exists w, a, c; eexists; reflexivity.
Qed.

(** C8. The statement after the load is the non-null assertion on the
    handle the load returned.  A null handle makes that assertion raise
    and nothing more is executed; the document is shown only when the
    handle is that document, and no run dereferences a null handle. *)
Theorem load_then_assert_not_none (w0 : World) :
  exists w a c od wc wl rest,
    rocket_LoadDocument c "assets/blank.rml" wc = (od, wl)
    /\ log (snd (run w0))
       = (opening w a c ++ S_assertIsNotNone od :: rest)%list
    /\ (od = None ->
          fst (run w0) = Raise (AssertionError 25) /\ rest = []
          /\ world (snd (run w0)) = wl)
    /\ (forall d, In (S_Show d) (log (snd (run w0))) ->
          od = Some d /\ In (S_Show d) rest)
    /\ fst (run w0) <> Raise AttributeError.
Proof.
  run_cases w0; exists w, a, c; eexists; exists wc, wl; eexists;
    (split; [exact Hload|]); (split; [reflexivity|]);
    (split; [intros Hnone; try discriminate Hnone; auto|]);
    (split; [|discriminate]);
    intros d' Hin; in_log Hin;
    injection Hin as <-; cbn; tauto.
Qed.

(** C9 (as amended). A run ends in one of four ways.  When the non-null
    assertion or the is-open assertion fails, [close] has not been
    executed; in the two other cases, the text assertion passing or
    failing, [close] has been executed, and it is the statement right
    before the text assertion. *)
Theorem close_iff_first_two_assertions_pass (w0 : World) :
  (fst (run w0) = Ok tt
   \/ fst (run w0) = Raise (AssertionError 25)
   \/ fst (run w0) = Raise (AssertionError 29)
   \/ fst (run w0) = Raise (AssertionError 39))
  /\ (fst (run w0) = Raise (AssertionError 25)
      \/ fst (run w0) = Raise (AssertionError 29) ->
      forall w, ~ In (S_close w) (log (snd (run w0))))
  /\ (fst (run w0) = Ok tt
      \/ fst (run w0) = Raise (AssertionError 39) ->
      exists w, In (S_close w) (log (snd (run w0))))
  /\ (forall first second,
        In (S_assertEqual first second) (log (snd (run w0))) ->
        exists before w,
          log (snd (run w0))
          = (before ++ [S_close w; S_assertEqual first second])%list).
Proof.
  run_cases w0; (split; [tauto|]); split; try (intros [?|?]; discriminate);
    try (intros _ w' Hin; in_log Hin);
    split; try (intros [?|?]; discriminate);
    try (intros _; exists w; cbn; tauto);
    intros first second Hin; in_log Hin;
    injection Hin as <- <-;
    exists (opening w a c
            ++ [S_assertIsNotNone (Some d); S_Show d; S_assertTrue true;
                S_Update c; S_clear w; S_Render c; S_display w]), w;
    reflexivity.
Qed.

End SimpleWindowFacts.


Lemma text_assertion_after_cycle_witness :
  In (S_assertEqual "This is blank" "This is blank") (log (snd (run Stub.blank)))
  /\ fst (run Stub.blank) = Ok tt.
Proof.
  assert (Hin : In (S_assertEqual "This is blank" "This is blank")
                   (log (snd (run Stub.blank)))).
  { vm_compute. do 14 right. left. reflexivity. }
  split; [exact Hin|].
  destruct (text_assertion_after_cycle Stub.blank _ _ Hin)
    as (w & w1 & a & w2 & c & w3 & d & wl & pre & post
        & _ & _ & _ & _ & _ & _ & _ & _ & _ & _ & _ & _ & _ & Hpass & _).
  apply Hpass. reflexivity.
Defined.

Lemma passing_run_sequence_witness :
  fst (run Stub.blank) = Ok tt
  /\ exists w a c d,
       log (snd (run Stub.blank))
       = [S_RenderWindow (mkVideoMode 640 480) "pySFML Window";
          S_RktSFML w;
          S_CreateContext "default" (mkVector2i 640 480);
          S_rktInit a c;
          S_rktInitDebugger a;
          S_LoadDocument c "assets/blank.rml";
          S_assertIsNotNone (Some d);
          S_Show d;
          S_assertTrue true;
          S_Update c;
          S_clear w;
          S_Render c;
          S_display w;
          S_close w;
          S_assertEqual "This is blank" "This is blank"].
Proof.
  split; [reflexivity|].
  apply (passing_run_sequence Stub.blank). reflexivity.
Defined.

(** C4 (as stated). The sequence of the claim goes from the adapter's
    initialisation straight to the load.  The passing run on the stub
    libraries does not execute that sequence, whatever the handles. *)
Lemma claimed_sequence_not_executed :
  fst (run Stub.blank) = Ok tt
  /\ ~ (exists w a c d first second,
          log (snd (run Stub.blank))
          = [S_RenderWindow (mkVideoMode 640 480) "pySFML Window";
             S_RktSFML w;
             S_CreateContext "default" (mkVector2i 640 480);
             S_rktInit a c;
             S_LoadDocument c "assets/blank.rml";
             S_assertIsNotNone (Some d);
             S_Show d;
             S_assertTrue true;
             S_Update c;
             S_clear w;
             S_Render c;
             S_display w;
             S_close w;
             S_assertEqual first second]).
Proof.
  split; [reflexivity|].
  intros (w & a & c & d & first & second & Hlog).
  vm_compute in Hlog. discriminate Hlog.
Qed.

(** C7 (as stated). The claim has no run execute the debugger
    initialisation; the run on the stub libraries executes it. *)
Lemma debugger_init_executed_on_stub :
  ~ (forall a, ~ In (S_rktInitDebugger a) (log (snd (run Stub.blank)))).
Proof.
  intros Hnever. apply (Hnever tt). vm_compute. tauto.
Qed.

Lemma load_then_assert_not_none_witness :
  fst (run Stub.no_asset) = Raise (AssertionError 25)
  /\ fst (run Stub.blank) <> Raise AttributeError.
Proof.
  split.
  - destruct (load_then_assert_not_none Stub.no_asset)
      as (w & a & c & od & wc & wl & rest & Hload & Hlog & Hnone & _).
    apply Hnone.
    destruct od as [d|]; [|reflexivity].
    vm_compute in Hlog. discriminate Hlog.
  - destruct (load_then_assert_not_none Stub.blank)
      as (w & a & c & od & wc & wl & rest & _ & _ & _ & _ & Hattr).
    exact Hattr.
Defined.

(** C9 (as stated). The claim has [close] executed only when all
    assertions pass.  On the stub libraries with another text in the
    asset, the text assertion fails and [close] has been executed. *)
Lemma close_executed_on_failing_run :
  fst (run Stub.other_text) = Raise (AssertionError 39)
  /\ In (S_close tt) (log (snd (run Stub.other_text)))
  /\ ~ (forall w, In (S_close w) (log (snd (run Stub.other_text))) ->
                  fst (run Stub.other_text) = Ok tt).
Proof.
  assert (Hin : In (S_close tt) (log (snd (run Stub.other_text)))).
  { vm_compute. tauto. }
  split; [reflexivity|]. split; [exact Hin|].
  intros Honly. specialize (Honly tt Hin). discriminate Honly.
Qed.

Lemma close_iff_first_two_assertions_pass_witness :
  ~ In (S_close tt) (log (snd (run Stub.no_asset)))
  /\ ~ In (S_close tt) (log (snd (run Stub.no_display)))
  /\ (exists w, In (S_close w) (log (snd (run Stub.other_text)))).
Proof.
  split; [|split].
  - apply (close_iff_first_two_assertions_pass Stub.no_asset).
    left. reflexivity.
  - apply (close_iff_first_two_assertions_pass Stub.no_display).
    right. reflexivity.
  - apply (close_iff_first_two_assertions_pass Stub.other_text).
    right. reflexivity.
Defined.

(* ===================================================================== *)
(** ** The build descriptors *)
(* ===================================================================== *)

(** With the root set, a descriptor evaluates to its [setup] call. *)
Ltac eval_setup :=
  cbv [setup_of legacy.setup python.setup scripts.setup
       legacy.project_dir python.project_dir scripts.project_dir
       legacy.extensions python.extensions scripts.extensions
       os.environ_get];
  repeat match goal with
         | H : @lookup _ _ _ _ _ ?environ = _ |- _ => rewrite !H
         end;
  cbv [mbind result_bind os.path_join].

(** C2. With both roots set, variants A and C declare the modules
    tests.lib.PyStubTemplate and lib.PyRktSFMLInterface; the stub links
    nothing and the bridge links its own library, Felt in A and
    RktSFMLInterface in C, followed by the same six libraries; apart from
    that library the linked sets are equal. *)
Theorem legacy_scripts_same_modules_and_libraries
    (environ : gmap string string) (rootA rootC : string) :
  environ !! "PROJECT_DIR" = Some rootA ->
  environ !! "PROJECT_ROOT" = Some rootC ->
  exists sA sC,
    legacy.setup environ = Ok sA /\ scripts.setup environ = Ok sC
    /\ module_names sA = ["tests.lib.PyStubTemplate"; "lib.PyRktSFMLInterface"]
    /\ module_names sC = ["tests.lib.PyStubTemplate"; "lib.PyRktSFMLInterface"]
    /\ list_to_set (module_names sA) =@{gset string}
       list_to_set (module_names sC)
    /\ map libraries (modules sA)
       = [[]; ["Felt"; "RocketCore"; "RocketControls"; "RocketDebugger";
               "sfml-window"; "sfml-system"; "sfml-graphics"]]
    /\ map libraries (modules sC)
       = [[]; ["RktSFMLInterface"; "RocketCore"; "RocketControls";
               "RocketDebugger"; "sfml-window"; "sfml-system";
               "sfml-graphics"]]
    /\ without "Felt" (linked_libraries sA)
       = ["RocketCore"; "RocketControls"; "RocketDebugger";
          "sfml-window"; "sfml-system"; "sfml-graphics"]
    /\ without "RktSFMLInterface" (linked_libraries sC)
       = ["RocketCore"; "RocketControls"; "RocketDebugger";
          "sfml-window"; "sfml-system"; "sfml-graphics"]
    /\ list_to_set (without "Felt" (linked_libraries sA)) =@{gset string}
       list_to_set (without "RktSFMLInterface" (linked_libraries sC)).
Proof.
  intros HA HC. eval_setup.
  do 2 eexists. repeat split; reflexivity.
Qed.

Lemma legacy_scripts_same_modules_and_libraries_witness :
  exists sA sC,
    legacy.setup {[ "PROJECT_DIR" := "/repo"; "PROJECT_ROOT" := "/repo" ]} = Ok sA
    /\ scripts.setup {[ "PROJECT_DIR" := "/repo"; "PROJECT_ROOT" := "/repo" ]} = Ok sC
    /\ module_names sA = module_names sC
    /\ without "Felt" (linked_libraries sA)
       = without "RktSFMLInterface" (linked_libraries sC).
Proof.
  destruct (legacy_scripts_same_modules_and_libraries
              {[ "PROJECT_DIR" := "/repo"; "PROJECT_ROOT" := "/repo" ]}
              "/repo" "/repo")
    as (sA & sC & HsA & HsC & HnA & HnC & _ & _ & _ & HlA & HlC & _).
  - vm_compute. reflexivity.
  - vm_compute. reflexivity.
  - exists sA, sC. repeat split; congruence.
Defined.

(** C5 (as amended). In every variant, when the root variable is unset
    the lookup yields [None] without complaint, the first path join
    against it raises, and so does the descriptor as a whole: no
    extension is declared and [setup] is not reached. *)
Theorem unset_root_raises (v : variant) (environ : gmap string string) :
  environ !! root_variable v = None ->
  project_dir_of v environ = None
  /\ extensions_of v (project_dir_of v environ) = Raise TypeError
  /\ setup_of v environ = Raise TypeError.
Proof.
  intros Hunset.
  assert (Hdir : project_dir_of v environ = None) by (destruct v; exact Hunset).
  split; [exact Hdir|]. rewrite Hdir.
  destruct v; (split; [reflexivity|]); cbn in Hdir;
    cbv [setup_of legacy.setup python.setup scripts.setup];
    rewrite Hdir; reflexivity.
Qed.

Lemma unset_root_raises_witness :
  setup_of A ∅ = Raise TypeError
  /\ setup_of B ∅ = Raise TypeError
  /\ setup_of C ∅ = Raise TypeError.
Proof.
  split; [|split].
  - apply (unset_root_raises A ∅). reflexivity.
  - apply (unset_root_raises B ∅). reflexivity.
  - apply (unset_root_raises C ∅). reflexivity.
Defined.

(** C5 (as stated). The claim has the derivation of paths go on when the
    root variable is unset; with an empty environment no variant yields a
    descriptor. *)
Lemma unset_root_does_not_proceed :
  ~ (forall v : variant,
       (∅ : gmap string string) !! root_variable v = None ->
       exists s, setup_of v ∅ = Ok s).
Proof.
  intros Hclaim. destruct (Hclaim A) as [s Hs]; [reflexivity|].
  vm_compute in Hs. discriminate Hs.
Qed.

(** A relative path is never the result of joining something to an
    absolute root. *)
Lemma join_absolute_root (root rel : string) :
  os.startswith_sep root = true ->
  os.startswith_sep (os.join_str root rel) = true.
Proof.
  intros Habs. unfold os.join_str.
  destruct (os.startswith_sep rel) eqn:Hrel; [exact Hrel|].
  destruct root as [|ch root']; [discriminate Habs|].
  destruct (_ || _)%bool; exact Habs.
Qed.

(** C6 (as amended). Each variant's root is the plain lookup of its
    variable, PROJECT_DIR for A and B and PROJECT_ROOT for C, hence absent
    when the variable is; with the root set, every include directory,
    library directory and output directory of the descriptor is the join
    of the root with a fixed relative path, and the source files are fixed
    relative paths that do not depend on the root. *)
Theorem root_lookup_and_derived_paths
    (v : variant) (environ : gmap string string) :
  legacy.project_dir environ = environ !! "PROJECT_DIR"
  /\ python.project_dir environ = environ !! "PROJECT_DIR"
  /\ scripts.project_dir environ = environ !! "PROJECT_ROOT"
  /\ project_dir_of v environ = environ !! root_variable v
  /\ forall root, environ !! root_variable v = Some root ->
       exists s,
         setup_of v environ = Ok s
         /\ include_paths s
            = map (os.join_str root)
                (match v with
                 | A => ["tests"; "include"; "libFelt"]
                 | B => ["tests"]
                 | C => ["src/tests"; "include"; "vendor/include"]
                 end)
         /\ library_paths s
            = map (os.join_str root)
                (match v with
                 | A => ["lib/rocket/lib"; "libFelt/.libs"]
                 | B => []
                 | C => ["lib"; "vendor/lib"]
                 end)
         /\ output_paths s
            = map (os.join_str root)
                (match v with
                 | A => ["python/felt/lib"]
                 | B => []
                 | C => ["scripts/felt/lib"]
                 end)
         /\ source_paths s
            = match v with
              | A | C => ["tests/lib/PyStubTemplate.pyx";
                          "lib/PyRktSFMLInterface.pyx"]
              | B => ["tests/lib/PyStubTemplate.pyx"]
              end.
Proof.
  do 3 (split; [reflexivity|]).
  split; [destruct v; reflexivity|].
  intros root Hroot.
  destruct v; cbn [root_variable] in Hroot; eval_setup;
    eexists; repeat split; reflexivity.
Qed.

Lemma root_lookup_and_derived_paths_witness :
  exists s,
    setup_of A {[ "PROJECT_DIR" := "/repo" ]} = Ok s
    /\ include_paths s = ["/repo/tests"; "/repo/include"; "/repo/libFelt"]
    /\ library_paths s = ["/repo/lib/rocket/lib"; "/repo/libFelt/.libs"]
    /\ output_paths s = ["/repo/python/felt/lib"].
Proof.
  destruct (root_lookup_and_derived_paths A {[ "PROJECT_DIR" := "/repo" ]})
    as (_ & _ & _ & _ & Hset).
  destruct (Hset "/repo") as (s & Hs & Hi & Hl & Ho & _).
  - vm_compute. reflexivity.
  - exists s. rewrite Hi, Hl, Ho. repeat split; try reflexivity. exact Hs.
Defined.

(** C6 (as stated). The claim has every path other than the root derived
    from the root by a path join.  With PROJECT_DIR=/repo, variant A
    declares the source path tests/lib/PyStubTemplate.pyx, which no join
    against /repo yields. *)
Lemma source_path_not_joined_to_root :
  exists s,
    legacy.setup {[ "PROJECT_DIR" := "/repo" ]} = Ok s
    /\ In "tests/lib/PyStubTemplate.pyx" (declared_paths s)
    /\ ~ (exists rel,
            os.path_join (Some "/repo") rel = Ok "tests/lib/PyStubTemplate.pyx").
Proof.
  eexists. split; [vm_compute; reflexivity|].
  split; [vm_compute; tauto|].
  intros (rel & Hjoin). injection Hjoin as Hjoin.
  pose proof (join_absolute_root "/repo" rel eq_refl) as Habs.
  rewrite Hjoin in Habs. discriminate Habs.
Qed.

(** C10. With the roots set, variant B's [cythonize] call has neither
    [gdb_debug] nor [output_dir], while the calls of A and C have
    [gdb_debug=True] and an [output_dir] joined to their root; whatever
    the environment, a descriptor of variant B has neither keyword. *)
Theorem cythonize_keywords
    (environ : gmap string string) (rootA rootC : string) :
  environ !! "PROJECT_DIR" = Some rootA ->
  environ !! "PROJECT_ROOT" = Some rootC ->
  (exists sA sB sC,
     legacy.setup environ = Ok sA /\ python.setup environ = Ok sB
     /\ scripts.setup environ = Ok sC
     /\ gdb_debug (ext_modules sB) = None
     /\ output_dir (ext_modules sB) = None
     /\ gdb_debug (ext_modules sA) = Some true
     /\ output_dir (ext_modules sA) = Some (os.join_str rootA "python/felt/lib")
     /\ gdb_debug (ext_modules sC) = Some true
     /\ output_dir (ext_modules sC) = Some (os.join_str rootC "scripts/felt/lib"))
  /\ (forall environ' sB',
        python.setup environ' = Ok sB' ->
        gdb_debug (ext_modules sB') = None
        /\ output_dir (ext_modules sB') = None).
Proof.
  intros HA HC. split.
  - eval_setup. do 3 eexists. repeat split; reflexivity.
  - intros environ' sB'. unfold python.setup.
    destruct (python.extensions _) as [exts|e]; cbn; [|discriminate].
    intros HsB. injection HsB as <-. split; reflexivity.
Qed.

Lemma cythonize_keywords_witness :
  exists sA sB sC,
    legacy.setup {[ "PROJECT_DIR" := "/repo"; "PROJECT_ROOT" := "/repo" ]} = Ok sA
    /\ python.setup {[ "PROJECT_DIR" := "/repo"; "PROJECT_ROOT" := "/repo" ]} = Ok sB
    /\ scripts.setup {[ "PROJECT_DIR" := "/repo"; "PROJECT_ROOT" := "/repo" ]} = Ok sC
    /\ output_dir (ext_modules sA) = Some "/repo/python/felt/lib"
    /\ output_dir (ext_modules sB) = None
    /\ output_dir (ext_modules sC) = Some "/repo/scripts/felt/lib".
Proof.
  destruct (cythonize_keywords
              {[ "PROJECT_DIR" := "/repo"; "PROJECT_ROOT" := "/repo" ]}
              "/repo" "/repo")
    as ((sA & sB & sC & HsA & HsB & HsC & _ & HoB & _ & HoA & _ & HoC) & _).
  - vm_compute. reflexivity.
  - vm_compute. reflexivity.
  - exists sA, sB, sC. rewrite HoA, HoB, HoC. repeat split; assumption.
Defined.

(* ===================================================================== *)
(** ** Further facts about the build descriptors *)
(* ===================================================================== *)

Lemma prefix_append (a b : string) : String.prefix a (a ++ b)%string = true.
Proof.
  induction a as [|ch a IH]; [destruct b; reflexivity|].
  rewrite append_cons. cbn [String.prefix].
  destruct (ascii_dec ch ch) as [_|Hne]; [exact IH|contradiction].
Qed.

Lemma endswith_sep_append (a : string) :
  os.endswith_sep (a ++ "/")%string = true.
Proof.
  induction a as [|ch a IH]; [reflexivity|].
  rewrite append_cons. cbn [os.endswith_sep].
  destruct (a ++ "/")%string eqn:Ha.
  - destruct a; discriminate Ha.
  - exact IH.
Qed.

(** Joining a relative path to a root keeps the root in front. *)
Lemma join_relative_prefix (root rel : string) :
  os.startswith_sep rel = false ->
  String.prefix root (os.join_str root rel) = true.
Proof.
  intros Hrel. unfold os.join_str. rewrite Hrel.
  destruct (_ || _)%bool; apply prefix_append.
Qed.

(** A root and the same root followed by a separator join alike. *)
Lemma join_trailing_sep (root rel : string) :
  root <> "" -> os.endswith_sep root = false ->
  os.join_str (root ++ "/") rel = os.join_str root rel.
Proof.
  intros Hne Hend. unfold os.join_str.
  destruct (os.startswith_sep rel); [reflexivity|].
  rewrite endswith_sep_append, Hend, orb_true_r.
  apply String.eqb_neq in Hne. rewrite Hne. cbn [orb].
  apply append_assoc.
Qed.

(** With the root set, a descriptor evaluates in terms of [join_str]. *)
Ltac eval_setup_at v :=
  destruct v; cbn [root_variable] in *; eval_setup.

(** X1. With the root set, every include, library and output directory
    of a descriptor starts with the root: no declaration escapes it. *)
Theorem derived_paths_under_root
    (v : variant) (environ : gmap string string) (root : string)
    (s : setup_call) :
  environ !! root_variable v = Some root ->
  setup_of v environ = Ok s ->
  Forall (fun p => String.prefix root p = true) (search_and_output_paths s).
Proof.
  intros Hroot. eval_setup_at v; intros Hs; injection Hs as <-;
    cbv [search_and_output_paths include_paths library_paths output_paths
         modules ext_modules module_list include_dirs library_dirs
         output_dir map concat app];
    repeat constructor; apply join_relative_prefix; reflexivity.
Qed.

Lemma derived_paths_under_root_witness :
  exists s,
    setup_of C {[ "PROJECT_ROOT" := "/opt/felt" ]} = Ok s
    /\ Forall (fun p => String.prefix "/opt/felt" p = true)
              (search_and_output_paths s).
Proof.
  destruct (setup_of C {[ "PROJECT_ROOT" := "/opt/felt" ]}) as [s|e] eqn:Hs;
    [|vm_compute in Hs; discriminate Hs].
  exists s. split; [reflexivity|].
  apply (derived_paths_under_root C {[ "PROJECT_ROOT" := "/opt/felt" ]}).
  - vm_compute. reflexivity.
  - exact Hs.
Defined.

(** X2. A separator at the end of the root makes no difference: a
    non-empty root without one and the same root with one give the same
    descriptor. *)
Theorem trailing_separator_irrelevant
    (v : variant) (environ environ' : gmap string string) (root : string) :
  root <> "" -> os.endswith_sep root = false ->
  environ !! root_variable v = Some root ->
  environ' !! root_variable v = Some (root ++ "/")%string ->
  setup_of v environ' = setup_of v environ.
Proof.
  intros Hne Hend Hroot Hroot'.
  eval_setup_at v; rewrite !join_trailing_sep by assumption; reflexivity.
Qed.

Lemma trailing_separator_irrelevant_witness :
  setup_of A {[ "PROJECT_DIR" := "/repo/" ]}
  = setup_of A {[ "PROJECT_DIR" := "/repo" ]}.
Proof.
  apply (trailing_separator_irrelevant A _ _ "/repo").
  - discriminate.
  - reflexivity.
  - vm_compute. reflexivity.
  - vm_compute. reflexivity.
Defined.

(** X3. A root set to the empty string is accepted: the descriptor
    evaluates, and every path it declares is relative. *)
Theorem empty_root_gives_relative_paths
    (v : variant) (environ : gmap string string) :
  environ !! root_variable v = Some "" ->
  exists s,
    setup_of v environ = Ok s
    /\ Forall (fun p => os.startswith_sep p = false) (declared_paths s)
    /\ search_and_output_paths s
       = match v with
         | A => ["tests"; "include"; "libFelt"; "lib/rocket/lib";
                 "libFelt/.libs"; "python/felt/lib"]
         | B => ["tests"]
         | C => ["src/tests"; "include"; "vendor/include"; "lib";
                 "vendor/lib"; "scripts/felt/lib"]
         end.
Proof.
  intros Hroot. eval_setup_at v; eexists; (split; [reflexivity|]);
    (split; [repeat constructor|reflexivity]).
Qed.

Lemma empty_root_gives_relative_paths_witness :
  exists s,
    setup_of B {[ "PROJECT_DIR" := "" ]} = Ok s
    /\ include_paths s = ["tests"].
Proof.
  destruct (empty_root_gives_relative_paths B {[ "PROJECT_DIR" := "" ]})
    as (s & Hs & _ & Hpaths).
  - vm_compute. reflexivity.
  - exists s. split; [exact Hs|].
    vm_compute in Hs. injection Hs as <-. reflexivity.
Defined.

(** X4. A descriptor reads its root variable and nothing else: binding
    or unbinding any other variable leaves its outcome unchanged. *)
Theorem other_variables_ignored
    (v : variant) (environ : gmap string string) (key value : string) :
  key <> root_variable v ->
  setup_of v (<[key := value]> environ) = setup_of v environ
  /\ setup_of v (delete key environ) = setup_of v environ.
Proof.
  intros Hkey.
  assert (Hins : <[key := value]> environ !! root_variable v
                 = environ !! root_variable v)
    by (apply lookup_insert_ne; exact Hkey).
  assert (Hdel : delete key environ !! root_variable v
                 = environ !! root_variable v)
    by (apply lookup_delete_ne; exact Hkey).
  destruct v; cbn [root_variable] in Hins, Hdel;
    cbv [setup_of legacy.setup python.setup scripts.setup
         legacy.project_dir python.project_dir scripts.project_dir
         os.environ_get];
    rewrite Hins, Hdel; split; reflexivity.
Qed.

Lemma other_variables_ignored_witness :
  setup_of C (<["PROJECT_DIR" := "/repo"]> ∅) = Raise TypeError.
Proof.
  destruct (other_variables_ignored C ∅ "PROJECT_DIR" "/repo") as [Hins _].
  - discriminate.
  - rewrite Hins. reflexivity.
Defined.

(** X5. Variant B's declaration is variant A's first declaration; the
    declarations of variant C are those of variant A with other include
    and library directories and another first library. *)
Theorem declarations_across_variants (root : string) :
  exists stub bridge,
    legacy.extensions (Some root) = Ok [stub; bridge]
    /\ python.extensions (Some root) = Ok [stub]
    /\ scripts.extensions (Some root)
       = Ok [ {| ext_name := ext_name stub;
                 sources := sources stub;
                 include_dirs := [os.join_str root "src/tests"];
                 library_dirs := library_dirs stub;
                 libraries := libraries stub;
                 language := language stub;
                 extra_compile_args := extra_compile_args stub;
                 extra_link_args := extra_link_args stub |};
              {| ext_name := ext_name bridge;
                 sources := sources bridge;
                 include_dirs := [os.join_str root "include";
                                  os.join_str root "vendor/include"];
                 library_dirs := [os.join_str root "lib";
                                  os.join_str root "vendor/lib"];
                 libraries := "RktSFMLInterface" :: tail (libraries bridge);
                 language := language bridge;
                 extra_compile_args := extra_compile_args bridge;
                 extra_link_args := extra_link_args bridge |} ].
Proof.
  do 2 eexists. repeat split; reflexivity.
Qed.

(** X6. Every declared extension is a C++ module with one source, the
    [.pyx] file at the path its dotted name spells. *)
Theorem module_name_matches_source
    (v : variant) (environ : gmap string string) (s : setup_call)
    (e : Extension) :
  setup_of v environ = Ok s ->
  In e (modules s) ->
  sources e = [module_path (ext_name e)] /\ language e = Some "c++".
Proof.
  destruct (environ !! root_variable v) as [root|] eqn:Hroot.
  - eval_setup_at v; intros Hs; injection Hs as <-; cbn;
      intros Hin; repeat (destruct Hin as [<-|Hin]; [split; reflexivity|]);
      contradiction.
  - eval_setup_at v; discriminate.
Qed.

Lemma module_name_matches_source_witness :
  exists s e,
    setup_of A {[ "PROJECT_DIR" := "/repo" ]} = Ok s
    /\ ext_name e = "lib.PyRktSFMLInterface"
    /\ sources e = ["lib/PyRktSFMLInterface.pyx"].
Proof.
  destruct (setup_of A {[ "PROJECT_DIR" := "/repo" ]}) as [s|x] eqn:Hs;
    [|vm_compute in Hs; discriminate Hs].
  destruct (modules s) as [|e0 [|e rest]] eqn:Hmods;
    try (vm_compute in Hs; injection Hs as <-; discriminate Hmods).
  exists s, e. split; [reflexivity|].
  assert (Hname : ext_name e = "lib.PyRktSFMLInterface").
  { vm_compute in Hs. injection Hs as <-. injection Hmods as _ <- _.
    reflexivity. }
  split; [exact Hname|].
  destruct (module_name_matches_source A _ s e Hs) as [Hsrc _].
  - rewrite Hmods. right. left. reflexivity.
  - rewrite Hsrc, Hname. reflexivity.
Defined.

(* ===================================================================== *)
(** ** Further facts about [strip] and the test *)
(* ===================================================================== *)

Section SimpleWindowMore.

Context {World Window Adapter Context Document : Type}.
Context {L : Libs World Window Adapter Context Document}.

Ltac run_cases' w0 :=
  let w := fresh "w" in let a := fresh "a" in let c := fresh "c" in
  let od := fresh "od" in let wc := fresh "wc" in let wl := fresh "wl" in
  let Hload := fresh "Hload" in let Hrun := fresh "Hrun" in
  let Hopen := fresh "Hopen" in let Htext := fresh "Htext" in
  destruct (run_paths w0) as (w & a & c & od & wc & wl & Hload & Hrun);
  destruct od as [?d|];
  [ cbv zeta in Hrun;
    destruct (sf_is_open w _) eqn:Hopen;
    [ destruct (String.eqb _ "This is blank") eqn:Htext | ] | ];
  rewrite Hrun in *; cbn [fst snd log world] in *.

Ltac in_log' H :=
  cbn [opening frame app In] in H;
  repeat (destruct H as [H|H]; try discriminate H); try contradiction.

(** X7. The test passes exactly when the load returned a document, the
    window reported open, and the text of that document, in the state
    the libraries are left in, is the literal between two runs of white
    space. *)
Theorem test_passes_iff (w0 : World) :
  fst (run w0) = Ok tt
  <-> exists d pre post,
        In (S_assertIsNotNone (Some d)) (log (snd (run w0)))
        /\ In (S_assertTrue true) (log (snd (run w0)))
        /\ all_space pre = true /\ all_space post = true
        /\ rocket_inner_rml d (world (snd (run w0)))
           = (pre ++ "This is blank" ++ post)%string.
Proof.
  split.
  - intros Hok. run_cases' w0; try discriminate Hok.
    apply String.eqb_eq in Htext.
    destruct (strip_decompose
                (rocket_inner_rml d (sf_close w (sf_display w (rocket_Render c
                   (sf_clear w (rocket_Update c (rocket_Show d wl))))))))
      as (pre & post & Hpre & Hpost & Hraw).
    rewrite Htext in Hraw.
    exists d, pre, post. cbn. tauto.
  - intros (d' & pre & post & Hdoc & Hopen' & Hpre & Hpost & Hraw).
    run_cases' w0; in_log' Hdoc; in_log' Hopen'.
    + reflexivity.
    + injection Hdoc as <-. apply String.eqb_neq in Htext.
      rewrite Hraw in Htext. contradict Htext.
      apply strip_unique; auto.
Qed.

(** X8. White space around the expected text does not fail the test:
    when the load returned a document and the window reported open, a
    text made of the literal between two runs of white space passes. *)
Theorem surrounding_space_tolerated
    (w0 : World) (d : Document) (pre post : string) :
  In (S_assertIsNotNone (Some d)) (log (snd (run w0))) ->
  In (S_assertTrue true) (log (snd (run w0))) ->
  all_space pre = true -> all_space post = true ->
  rocket_inner_rml d (world (snd (run w0)))
  = (pre ++ "This is blank" ++ post)%string ->
  fst (run w0) = Ok tt.
Proof.
  intros Hdoc Hopen' Hpre Hpost Htext'.
  assert (Hstrip : str.strip (rocket_inner_rml d (world (snd (run w0))))
                   = "This is blank").
  { rewrite Htext'.
    apply (strip_surrounded pre "This is blank" post
             "T" "k" "his is blank" "nalb si sihT"); auto. }
  run_cases' w0; in_log' Hdoc; in_log' Hopen'.
  - reflexivity.
  - injection Hdoc as <-. apply String.eqb_neq in Htext. contradiction.
Qed.

(** X9. No statement is executed twice: the log of a run has no
    repetition. *)
Theorem no_statement_twice (w0 : World) :
  NoDup (log (snd (run w0))).
Proof.
  run_cases' w0; cbn [opening frame app];
    repeat (apply NoDup_cons_2;
            [ let Hin := fresh "Hin" in
              intros Hin%list_elem_of_In; in_log' Hin | ]);
    apply NoDup_nil_2.
Qed.

(** X10. The handles flow as the test names them: the adapter is built
    from the window that was created, the context is created after the
    adapter, and every later statement on a window, an adapter or a
    context is on those. *)
Theorem handles_flow (w0 : World) :
  exists w w1 a w2 c w3 rest,
    sf_RenderWindow (mkVideoMode 640 480) "pySFML Window" w0 = (w, w1)
    /\ RktSFML_init w w1 = (a, w2)
    /\ rocket_CreateContext "default" (mkVector2i 640 480) w2 = (c, w3)
    /\ log (snd (run w0))
       = [S_RenderWindow (mkVideoMode 640 480) "pySFML Window";
          S_RktSFML w;
          S_CreateContext "default" (mkVector2i 640 480)] ++ rest
    /\ Forall (on_handles w a c) rest.
Proof.
  unfold run, test_open_window_load_document.
  cbv [mbind M_bind RenderWindow RktSFML CreateContext rktInit
       rktInitDebugger LoadDocument call call_ world log].
  destruct (sf_RenderWindow _ _ w0) as [w w1] eqn:Hwindow.
  destruct (RktSFML_init w w1) as [a w2] eqn:Hadapter.
  destruct (rocket_CreateContext _ _ w2) as [c w3] eqn:Hcontext.
  destruct (rocket_LoadDocument c _ _) as [od wl].
  exists w, w1, a, w2, c, w3.
  destruct od as [d|].
  - cbv [assertIsNotNone assertion Show call_ is_open read assertTrue
         world log Update clear Render display close inner_rml assertEqual].
    cbn [app].
    destruct (sf_is_open w _); eexists;
      (split; [reflexivity|]); (split; [exact Hadapter|]);
      (split; [exact Hcontext|]); (split; [reflexivity|]);
      repeat constructor.
  - eexists. cbn.
    split; [reflexivity|]. split; [exact Hadapter|].
    split; [exact Hcontext|]. split; [reflexivity|]. repeat constructor.
Qed.

End SimpleWindowMore.

Lemma surrounding_space_tolerated_witness : fst (run Stub.blank) = Ok tt.
Proof.
  apply (surrounding_space_tolerated Stub.blank "assets/blank.rml"
           (String "010" "") (String "010" "")).
  - vm_compute. tauto.
  - vm_compute. tauto.
  - reflexivity.
  - reflexivity.
  - reflexivity.
Defined.
